(** * folium.plugins.timestamped_wmstilelayer

    A shallow embedding of [TimestampedWmsTileLayers]: its constructor, the
    Jinja2 [script] macro held in [_template], and [render], together with
    the part of the element tree and of the interpreter they rely on. *)

From Stdlib Require Import ZArith String Ascii List Bool Lia.
From Stdlib Require Import Floats.SpecFloat.
From Stdlib Require Import DecimalString.
From stdpp Require Import gmap.
Import ListNotations.

Local Open Scope string_scope.

(** ** Exceptions and results *)

Inductive exn : Type :=
| AssertionError (msg : string)
| TypeError
| ValueError
| OverflowError
| AttributeError
| UndefinedError.

Inductive result (A : Type) : Type :=
| Ok (a : A)
| Raise (e : exn).

Arguments Ok {A} a.
Arguments Raise {A} e.

Class Monad (M : Type -> Type) : Type :=
  { ret : forall {A}, A -> M A;
    bind : forall {A B}, M A -> (A -> M B) -> M B }.

Declare Scope py_scope.
Delimit Scope py_scope with py.
Notation "x <- c1 ;; c2" := (bind c1 (fun x => c2))
  (at level 100, c1 at next level, right associativity) : py_scope.
Notation "c1 ;; c2" := (bind c1 (fun _ => c2))
  (at level 100, right associativity) : py_scope.
Local Open Scope py_scope.

#[export] Instance result_monad : Monad result :=
  {| ret := fun A a => Ok a;
     bind := fun A B r k => match r with Ok a => k a | Raise e => Raise e end |}.

(** ** Python values

    The values a caller can hand to the constructor.  An object carries the
    names of the classes on its method resolution order and its attributes;
    a bound method of no argument is represented by the value it returns
    (enough for [get_name]), or by the exception it raises.  The special
    methods an object defines ([__bool__], [__len__], [__int__],
    [__index__], [__trunc__]) are among its attributes. *)

#[warnings="-register-all"]
Inductive pyval : Type :=
| PyNone
| PyBool (b : bool)
| PyInt (z : Z)
| PyFloat (f : spec_float)
| PyStr (s : string)
| PyList (l : list pyval)
| PyMethod (returns : pyval)
| PyRaiser (raises : exn)
| PyObj (mro : list string) (attrs : list (string * pyval)).

Definition string_of_Z (z : Z) : string :=
  NilZero.string_of_int (Z.to_int z).

Fixpoint assoc {A : Type} (k : string) (l : list (string * A)) : option A :=
  match l with
  | [] => None
  | (k', v) :: r => if String.eqb k k' then Some v else assoc k r
  end.

(** Calling a value with no argument. *)
Definition py_call (v : pyval) : result pyval :=
  match v with
  | PyMethod r => Ok r
  | PyRaiser e => Raise e
  | _ => Raise TypeError
  end.

(** The largest length an object may report. *)
Definition sys_maxsize : Z := 2 ^ 63 - 1.

(** [bool(v)]: the truth value of the builtin types; an object answers
    through [__bool__], which has to return a [bool], or else through
    [__len__], which has to return a length, and whatever these raise
    comes out; an object that defines neither is true. *)
Definition py_bool (v : pyval) : result bool :=
  match v with
  | PyNone => Ok false
  | PyBool b => Ok b
  | PyInt z => Ok (negb (z =? 0)%Z)
  | PyFloat (S754_zero _) => Ok false
  | PyFloat _ => Ok true
  | PyStr s => Ok (negb (s =? ""))
  | PyList [] => Ok false
  | PyList _ => Ok true
  | PyMethod _ => Ok true
  | PyRaiser _ => Ok true
  | PyObj _ attrs =>
      match assoc "__bool__" attrs with
      | Some m =>
          r <- py_call m ;;
          match r with
          | PyBool b => Ok b
          | _ => Raise TypeError
          end
      | None =>
          match assoc "__len__" attrs with
          | Some m =>
              r <- py_call m ;;
              match r with
              | PyBool b => Ok b
              | PyInt n =>
                  if (n <? 0)%Z then Raise ValueError
                  else if (sys_maxsize <? n)%Z then Raise OverflowError
                  else Ok (negb (n =? 0)%Z)
              | _ => Raise TypeError
              end
          | None => Ok true
          end
      end
  end.

(** [int(f)] for a float: the integral part, the fraction dropped. *)
Definition float_to_int (f : spec_float) : result Z :=
  match f with
  | S754_zero _ => Ok 0%Z
  | S754_infinity _ => Raise OverflowError
  | S754_nan => Raise ValueError
  | S754_finite s m e =>
      let mag := Z.shiftl (Z.pos m) e in
      Ok (if s then (- mag)%Z else mag)
  end.

(** [isinstance(v, cls)] for a class of the element hierarchy, which no
    builtin value belongs to. *)
Definition isinstance (v : pyval) (cls : string) : bool :=
  match v with
  | PyObj mro _ => existsb (String.eqb cls) mro
  | _ => false
  end.

(** [iter(v)]: lists yield their items and strings their characters; the
    other values modelled here are not iterable. *)
Definition py_iter (v : pyval) : result (list pyval) :=
  match v with
  | PyList l => Ok l
  | PyStr s =>
      Ok (map (fun c => PyStr (String c EmptyString)) (list_ascii_of_string s))
  | _ => Raise TypeError
  end.

(** An interpreter to run the definitions below on concrete inputs: it
    reads plain decimal literals and prints every opaque value alike. *)
Definition sample_int_of_str (s : string) : option Z :=
  option_map Z.of_int (NilZero.int_of_string s).

Definition sample_str_opaque (v : pyval) : string := "<object>".

Section Interpreter.

(** The interpreter's parsing of an integer literal held in a [str], and
    its formatting of floats, containers, methods and plain objects, are
    not this module's: both are taken as given. *)
Variable int_of_str : string -> option Z.
Variable str_opaque : pyval -> string.

(** What [__int__], [__index__] or [__trunc__] returned has to be an
    integer. *)
Definition int_result (r : pyval) : result Z :=
  match r with
  | PyInt z => Ok z
  | PyBool b => Ok (if b then 1 else 0)%Z
  | _ => Raise TypeError
  end.

(** [int(v)]; an object is converted by its [__int__], else its
    [__index__], else its [__trunc__], and whatever the method raises
    comes out. *)
Definition py_int (v : pyval) : result Z :=
  match v with
  | PyBool b => Ok (if b then 1 else 0)%Z
  | PyInt z => Ok z
  | PyFloat f => float_to_int f
  | PyStr s =>
      match int_of_str s with
      | Some z => Ok z
      | None => Raise ValueError
      end
  | PyObj _ attrs =>
      match assoc "__int__" attrs with
      | Some m => r <- py_call m ;; int_result r
      | None =>
          match assoc "__index__" attrs with
          | Some m => r <- py_call m ;; int_result r
          | None =>
              match assoc "__trunc__" attrs with
              | Some m => r <- py_call m ;; int_result r
              | None => Raise TypeError
              end
          end
      end
  | _ => Raise TypeError
  end.

(** [str(v)] *)
Definition py_str (v : pyval) : string :=
  match v with
  | PyNone => "None"
  | PyBool true => "True"
  | PyBool false => "False"
  | PyInt z => string_of_Z z
  | PyStr s => s
  | _ => str_opaque v
  end.

(** ** Jinja2 attribute access, calls and output

    [obj.attr] in a template yields the attribute, or the [Undefined] value
    when the object has none; it is used below for [get_name] and [version]
    only, which no builtin value has.  Calling [Undefined] raises, printing
    it gives the empty string. *)

Inductive jval : Type :=
| Defined (v : pyval)
| Undefined.

Definition jinja_getattr (v : pyval) (a : string) : jval :=
  match v with
  | PyObj _ attrs =>
      match assoc a attrs with
      | Some x => Defined x
      | None => Undefined
      end
  | _ => Undefined
  end.

Definition jinja_call (j : jval) : result pyval :=
  match j with
  | Undefined => Raise UndefinedError
  | Defined v => py_call v
  end.

Definition jinja_str (j : jval) : string :=
  match j with
  | Undefined => ""
  | Defined v => py_str v
  end.

(** A template body is a sequence of chunks rendered in order; the first
    one that raises aborts the rendering. *)
Definition text (s : string) : result string := Ok s.

Fixpoint join (cs : list (result string)) : result string :=
  match cs with
  | [] => Ok ""
  | c :: r => s <- c ;; t <- join r ;; Ok (s ++ t)
  end.

Definition for_in (it : result (list pyval)) (body : pyval -> result string)
  : result string :=
  l <- it ;; join (map body l).

(** ** The element tree

    An element has a generated name, may be a [Figure] (then it carries the
    identifier of its registries in the page store) and may have a
    parent. *)

#[warnings="-register-all"]
Inductive element : Type :=
| MkElement (name : string) (figure : option nat) (parent : option element).

Definition get_name (e : element) : string :=
  match e with MkElement n _ _ => n end.

Definition figure_id (e : element) : option nat :=
  match e with MkElement _ f _ => f end.

Definition is_Figure (e : element) : bool :=
  match figure_id e with Some _ => true | None => false end.

Fixpoint get_root (e : element) : element :=
  match e with
  | MkElement _ _ None => e
  | MkElement _ _ (Some p) => get_root p
  end.

(** What a registry of a figure holds. *)
Inductive child : Type :=
| JavascriptLink (url : string)
| CssLink (url : string)
| Element (template : string).

(** [_children] is an ordered dictionary: assigning to a key already there
    replaces the value in place, a new key goes last. *)
Definition odict : Type := list (string * child).

Fixpoint od_set (k : string) (v : child) (d : odict) : odict :=
  match d with
  | [] => [(k, v)]
  | (k', v') :: r =>
      if String.eqb k k' then (k, v) :: r else (k', v') :: od_set k v r
  end.

Record Figure : Type :=
  { header : odict;
    html : odict;
    script : odict }.

Definition empty_Figure : Figure :=
  {| header := []; html := []; script := [] |}.

(** The page store: the registries of every figure, by identifier.  A
    figure nothing was registered on yet has empty registries. *)
Definition figure_state (w : gmap nat Figure) (fid : nat) : Figure :=
  default empty_Figure (w !! fid).

(** Stateful code: the store is threaded through and survives a raise. *)
Definition M (A : Type) : Type := gmap nat Figure -> result A * gmap nat Figure.

#[export] Instance M_monad : Monad M :=
  {| ret := fun A a w => (Ok a, w);
     bind := fun A B m k w =>
       match m w with
       | (Ok a, w') => k a w'
       | (Raise e, w') => (Raise e, w')
       end |}.

Definition lift {A : Type} (r : result A) : M A := fun w => (r, w).

Definition py_assert (b : bool) (msg : string) : M unit :=
  if b then ret tt else lift (Raise (AssertionError msg)).

(** [figure.header.add_child(c, name=k)] and [figure.script.add_child]. *)
Definition header_add_child (figure : element) (c : child) (k : string)
  : M unit :=
  fun w =>
    match figure_id figure with
    | Some fid =>
        let f := figure_state w fid in
        (Ok tt, <[fid := {| header := od_set k c (header f);
                            html := html f;
                            script := script f |}]> w)
    | None => (Raise AttributeError, w)
    end.

Definition script_add_child (figure : element) (c : child) (k : string)
  : M unit :=
  fun w =>
    match figure_id figure with
    | Some fid =>
        let f := figure_state w fid in
        (Ok tt, <[fid := {| header := header f;
                            html := html f;
                            script := od_set k c (script f) |}]> w)
    | None => (Raise AttributeError, w)
    end.

(** ** TimestampedWmsTileLayers *)

Record TimestampedWmsTileLayers : Type :=
  { _id : string;
    _name : string;
    _parent : option element;
    layer_name : string;
    overlay : bool;
    control : bool;
    transition_time : Z;
    loop : bool;
    auto_play : bool;
    period : pyval;
    time_interval : pyval;
    layers : pyval }.

(** [__init__]; [uid] is the identifier the base class draws for the new
    element.  The node starts without a parent. *)
Definition __init__ (uid : string)
  (data transition_time loop auto_play period time_interval : pyval)
  : result TimestampedWmsTileLayers :=
  t <- py_int transition_time ;;
  l <- py_bool loop ;;
  a <- py_bool auto_play ;;
  Ok {| _id := uid;
        _name := "TimestampedWmsTileLayers";
        _parent := None;
        layer_name := "timestampedwms";
        overlay := true;
        control := false;
        transition_time := t;
        loop := l;
        auto_play := a;
        period := period;
        time_interval := time_interval;
        layers := if isinstance data "WmsTileLayer"
                  then PyList [data]
                  else data |}.

(** The constructor called with [data] alone. *)
Definition init_default (uid : string) (data : pyval)
  : result TimestampedWmsTileLayers :=
  __init__ uid data (PyInt 200) (PyBool false) (PyBool false)
    (PyStr "P1D") (PyBool false).

(** [this.add_to(parent)], as far as the node itself goes. *)
Definition add_to (this : TimestampedWmsTileLayers) (p : element)
  : TimestampedWmsTileLayers :=
  {| _id := _id this;
     _name := _name this;
     _parent := Some p;
     layer_name := layer_name this;
     overlay := overlay this;
     control := control this;
     transition_time := transition_time this;
     loop := loop this;
     auto_play := auto_play this;
     period := period this;
     time_interval := time_interval this;
     layers := layers this |}.

(** [this.get_name()]: the class name in snake case, then the identifier. *)
Definition this_get_name (this : TimestampedWmsTileLayers) : string :=
  "timestamped_wms_tile_layers_" ++ _id this.

(** The node seen as an element of the tree. *)
Definition as_element (this : TimestampedWmsTileLayers) : element :=
  MkElement (this_get_name this) None (_parent this).

(** ** The [script] macro of [_template] *)

Definition dq : string := String "034"%char EmptyString.

(** [{{this._parent.get_name()}}] *)
Definition parent_get_name (this : TimestampedWmsTileLayers) : result string :=
  match _parent this with
  | None => Raise UndefinedError
  | Some p => Ok (get_name p)
  end.

(** [{{'true' if b else 'false'}}] *)
Definition true_false (b : bool) : result string :=
  Ok (if b then "true" else "false").

(** [{{ layer.get_name() }}] *)
Definition layer_get_name (layer : pyval) : result string :=
  r <- jinja_call (jinja_getattr layer "get_name") ;; Ok (py_str r).

(** [{{ layer.version }}] *)
Definition layer_version (layer : pyval) : result string :=
  Ok (jinja_str (jinja_getattr layer "version")).

(** The body of the [for] block, for one layer. *)
Definition layer_block (this : TimestampedWmsTileLayers) (layer : pyval)
  : result string :=
  join
    [ text "
            var ";
      layer_get_name layer;
      text " = L.timeDimension.layer.wms(";
      layer_get_name layer;
      text ",
                {updateTimeDimension: false,
                 wmsVersion: '";
      layer_version layer;
      text "',
                }
                ).addTo(";
      parent_get_name this;
      text ");
            " ].

(** The body of the [if] block. *)
Definition time_interval_block (this : TimestampedWmsTileLayers)
  : result string :=
  b <- py_bool (time_interval this) ;;
  if b : bool
  then join
         [ text "
                timeInterval: ";
           text dq;
           Ok (py_str (time_interval this));
           text dq;
           text ",
                " ]
  else text "".

Definition macro_script (this : TimestampedWmsTileLayers) : result string :=
  join
    [ text "
            ";
      parent_get_name this;
      text ".timeDimension = L.timeDimension({
                period:";
      text dq;
      Ok (py_str (period this));
      text dq;
      text ",
                ";
      time_interval_block this;
      text "
                });
            ";
      parent_get_name this;
      text ".timeDimensionControl = L.control.timeDimension({
                position: 'bottomleft',
                autoPlay: ";
      true_false (auto_play this);
      text ",
                playerOptions: {
                    transitionTime: ";
      Ok (string_of_Z (transition_time this));
      text ",
                    loop: ";
      true_false (loop this);
      text "}
                    });
            ";
      parent_get_name this;
      text ".addControl(";
      parent_get_name this;
      text ".timeDimensionControl);

            ";
      for_in (py_iter (layers this)) (layer_block this);
      text "
        " ].

(** ** Rendering *)

Definition detached_message : string :=
  "You cannot render this Element if it's not in a Figure.".

(** Modelled from the spec: the [render] this class inherits (the base
    class is not part of this module).  It refuses a node that is not under
    a figure, then registers the output of the [script] macro on the
    figure's script registry under the node's name; the template has no
    [header] or [html] macro, and the node has no children to render. *)
Definition MacroElement_render (this : TimestampedWmsTileLayers) : M unit :=
  let figure := get_root (as_element this) in
  py_assert (is_Figure figure) detached_message ;;
  s <- lift (macro_script this) ;;
  script_add_child figure (Element s) (this_get_name this).

Definition render (this : TimestampedWmsTileLayers) : M unit :=
  MacroElement_render this ;;
  let figure := get_root (as_element this) in
  py_assert (is_Figure figure) detached_message ;;
  header_add_child figure
    (JavascriptLink "https://cdnjs.cloudflare.com/ajax/libs/jquery/2.0.0/jquery.min.js")
    "jquery2.0.0" ;;
  header_add_child figure
    (JavascriptLink "https://cdnjs.cloudflare.com/ajax/libs/jqueryui/1.10.2/jquery-ui.min.js")
    "jqueryui1.10.2" ;;
  header_add_child figure
    (JavascriptLink "https://rawgit.com/nezasa/iso8601-js-period/master/iso8601.min.js")
    "iso8601" ;;
  header_add_child figure
    (JavascriptLink "https://rawgit.com/socib/Leaflet.TimeDimension/master/dist/leaflet.timedimension.min.js")
    "leaflet.timedimension" ;;
  header_add_child figure
    (CssLink "https://cdnjs.cloudflare.com/ajax/libs/highlight.js/8.4/styles/default.min.css")
    "highlight.js_css" ;;
  header_add_child figure
    (CssLink "http://apps.socib.es/Leaflet.TimeDimension/dist/leaflet.timedimension.control.min.css")
    "leaflet.timedimension_css".

(** ** Vocabulary of the statements *)

(** A [WmsTileLayer] as this module sees it: an element of that class with
    a generated name and a [version] attribute. *)
Definition WmsTileLayer (uid version : string) : pyval :=
  PyObj ["WmsTileLayer"; "Layer"; "MacroElement"; "Element"; "object"]
    [("version", PyStr version);
     ("get_name", PyMethod (PyStr ("wms_tile_layer_" ++ uid)))].




(** The float denotes a number (it is neither an infinity nor a NaN). *)
Definition float_finite (f : spec_float) : bool :=
  match f with
  | S754_zero _ | S754_finite _ _ _ => true
  | _ => false
  end.

(** [t] is the float [f] rounded toward zero: it has the sign of [f], and
    [|t| <= |f| < |t| + 1], the value of a finite float being
    [m * 2 ^ e]. *)
Definition truncation_of (f : spec_float) (t : Z) : Prop :=
  match f with
  | S754_zero _ => t = 0%Z
  | S754_finite s m e =>
      (if s then t <= 0 else 0 <= t)%Z /\
      (Z.abs t * 2 ^ Z.max 0 (- e) <= Z.pos m * 2 ^ Z.max 0 e
       < (Z.abs t + 1) * 2 ^ Z.max 0 (- e))%Z
  | _ => False
  end.

(** [sub] occurs in [s]. *)
Definition occurs (sub s : string) : Prop :=
  exists a b, s = a ++ sub ++ b.


(** The parts of the script a reader of the page sees: the time-dimension
    object, its optional [timeInterval] field, the control widget, the
    [addControl] call and the declaration of one layer adapter. *)
Definition time_interval_field (value : string) : string :=
  "
                timeInterval: " ++ dq ++ value ++ dq ++ ",
                ".

Definition time_dimension_object (parent per field : string) : string :=
  parent ++ ".timeDimension = L.timeDimension({
                period:" ++ dq ++ per ++ dq ++ ",
                " ++ field ++ "
                });".

Definition control_widget (parent : string) (ap : bool) (t : Z) (lp : bool)
  : string :=
  parent ++ ".timeDimensionControl = L.control.timeDimension({
                position: 'bottomleft',
                autoPlay: " ++ (if ap then "true" else "false") ++ ",
                playerOptions: {
                    transitionTime: " ++ string_of_Z t ++ ",
                    loop: " ++ (if lp then "true" else "false") ++ "}
                    });".

Definition add_control (parent : string) : string :=
  parent ++ ".addControl(" ++ parent ++ ".timeDimensionControl);".


(** The [timeInterval] field of a node: there when the truth test of the
    stored value gives true. *)
Definition time_interval_text (ti : pyval) : string :=
  match py_bool ti with
  | Ok true => time_interval_field (py_str ti)
  | _ => ""
  end.

(** The whole script of a node under [parent], given what the [for] block
    produced. *)
Definition script_text (parent : string) (per ti : pyval) (ap : bool) (t : Z)
  (lp : bool) (body : string) : string :=
  "
            " ++
  time_dimension_object parent (py_str per) (time_interval_text ti) ++ "
            " ++
  control_widget parent ap t lp ++ "
            " ++
  add_control parent ++ "

            " ++
  body ++ "
        ".

(** The six resources [render] registers, by key, in registration order. *)
Definition resource_links : odict :=
  [ ("jquery2.0.0",
     JavascriptLink "https://cdnjs.cloudflare.com/ajax/libs/jquery/2.0.0/jquery.min.js");
    ("jqueryui1.10.2",
     JavascriptLink "https://cdnjs.cloudflare.com/ajax/libs/jqueryui/1.10.2/jquery-ui.min.js");
    ("iso8601",
     JavascriptLink "https://rawgit.com/nezasa/iso8601-js-period/master/iso8601.min.js");
    ("leaflet.timedimension",
     JavascriptLink "https://rawgit.com/socib/Leaflet.TimeDimension/master/dist/leaflet.timedimension.min.js");
    ("highlight.js_css",
     CssLink "https://cdnjs.cloudflare.com/ajax/libs/highlight.js/8.4/styles/default.min.css");
    ("leaflet.timedimension_css",
     CssLink "http://apps.socib.es/Leaflet.TimeDimension/dist/leaflet.timedimension.control.min.css") ].

Definition od_update (d new : odict) : odict :=
  fold_left (fun acc kv => od_set (fst kv) (snd kv) acc) new d.

Fixpoint count_key (k : string) (d : odict) : nat :=
  match d with
  | [] => 0
  | (k', _) :: r => (if String.eqb k k' then 1 else 0) + count_key k r
  end.

(** Rendering several nodes one after the other on the same store. *)
Fixpoint render_all (nodes : list TimestampedWmsTileLayers) : M unit :=
  match nodes with
  | [] => ret tt
  | n :: r => render n ;; render_all r
  end.


(** A small page to evaluate the definitions on: a figure, a map under it,
    an element attached to nothing, and nodes holding given layers. *)
Definition sample_figure : element := MkElement "figure_0" (Some 0) None.

Definition sample_map : element := MkElement "map_1" None (Some sample_figure).

Definition sample_div : element := MkElement "div_2" None None.

Definition sample_node (uid : string) (parent : option element)
  (ls : pyval) : TimestampedWmsTileLayers :=
  {| _id := uid;
     _name := "TimestampedWmsTileLayers";
     _parent := parent;
     layer_name := "timestampedwms";
     overlay := true;
     control := false;
     transition_time := 200;
     loop := false;
     auto_play := false;
     period := PyStr "P1D";
     time_interval := PyBool false;
     layers := ls |}.

(** A page store with two figures; the header of figure 0 already holds a
    link of another plugin and an older link under one of the six keys. *)
Definition sample_store : gmap nat Figure :=
  <[0 := {| header := [("leaflet", JavascriptLink "leaflet.js");
                       ("iso8601", JavascriptLink "iso8601-old.js")];
            html := [("map_1", Element "<div></div>")];
            script := [] |}]>
    (<[1 := {| header := [("jquery2.0.0", JavascriptLink "jquery-other.js")];
               html := [];
               script := [] |}]> ∅).


(** The float 200.9, that is 7068540352646349 * 2 ^ -45. *)
Definition float_200_9 : spec_float :=
  S754_finite false 7068540352646349 (-45).

(** ** The constructor *)

Lemma init_ok (uid : string) (data tt lp ap per ti : pyval) (z : Z)
  (l a : bool) :
  py_int tt = Ok z ->
  py_bool lp = Ok l ->
  py_bool ap = Ok a ->
  __init__ uid data tt lp ap per ti =
  Ok {| _id := uid;
        _name := "TimestampedWmsTileLayers";
        _parent := None;
        layer_name := "timestampedwms";
        overlay := true;
        control := false;
        transition_time := z;
        loop := l;
        auto_play := a;
        period := per;
        time_interval := ti;
        layers := if isinstance data "WmsTileLayer"
                  then PyList [data]
                  else data |}.
Proof.
  intros Hz Hl Ha. unfold __init__. rewrite Hz, Hl, Ha. reflexivity.
Qed.




Lemma float_to_int_truncates (f : spec_float) :
  float_finite f = true ->
  exists t, float_to_int f = Ok t /\ truncation_of f t.
Proof.
  destruct f as [s | s | | s m e]; simpl; try discriminate; intros _.
  - exists 0%Z. split; reflexivity.
  - set (mag := Z.shiftl (Z.pos m) e).
    assert (Hmag : (0 <= mag)%Z) by (apply Z.shiftl_nonneg; lia).
    assert (Hb : (mag * 2 ^ Z.max 0 (- e) <= Z.pos m * 2 ^ Z.max 0 e
                  < (mag + 1) * 2 ^ Z.max 0 (- e))%Z).
    { unfold mag. destruct (Z_le_gt_dec 0 e) as [He | He].
      - rewrite Z.shiftl_mul_pow2 by lia.
        replace (Z.max 0 (- e)) with 0%Z by lia.
        replace (Z.max 0 e) with e by lia.
        rewrite Z.pow_0_r. lia.
      - rewrite Z.shiftl_div_pow2 by lia.
        replace (Z.max 0 (- e)) with (- e)%Z by lia.
        replace (Z.max 0 e) with 0%Z by lia.
        rewrite Z.pow_0_r, Z.mul_1_r.
        assert (Hp : (0 < 2 ^ (- e))%Z) by (apply Z.pow_pos_nonneg; lia).
        pose proof (Z.div_mod (Z.pos m) (2 ^ (- e))) as Hdm.
        pose proof (Z.mod_pos_bound (Z.pos m) (2 ^ (- e)) Hp) as Hmod.
        nia. }
    exists (if s then (- mag)%Z else mag). split; [reflexivity |].
    destruct s.
    + split; [lia |]. rewrite Z.abs_opp, Z.abs_eq by lia. exact Hb.
    + split; [lia |]. rewrite Z.abs_eq by lia. exact Hb.
Qed.

(** ** The script macro *)

Lemma append_nil_r (s : string) : s ++ "" = s.
Proof.
  induction s as [| c s IH]; [reflexivity |].
  change (String c (s ++ "") = String c s). now rewrite IH.
Qed.

Lemma append_assoc (a b c : string) : (a ++ b) ++ c = a ++ b ++ c.
Proof.
  induction a as [| x a IH]; [reflexivity |].
  change (String x ((a ++ b) ++ c) = String x (a ++ b ++ c)). now rewrite IH.
Qed.

Ltac flatten := repeat rewrite append_assoc; repeat rewrite append_nil_r.

Lemma time_interval_block_ok (this : TimestampedWmsTileLayers) (b : bool) :
  py_bool (time_interval this) = Ok b ->
  time_interval_block this = Ok (time_interval_text (time_interval this)).
Proof.
  intros Hb.
  unfold time_interval_block, time_interval_text, time_interval_field, text.
  rewrite Hb. cbn [bind result_monad]. destruct b; cbn; [| reflexivity].
  now flatten.
Qed.

Lemma time_interval_block_raise (this : TimestampedWmsTileLayers) (e : exn) :
  py_bool (time_interval this) = Raise e ->
  time_interval_block this = Raise e.
Proof.
  intros Hb. unfold time_interval_block. now rewrite Hb.
Qed.

(** The script of an attached node: the truth test of the time interval
    comes first, then the layers. *)
Lemma macro_script_attached (this : TimestampedWmsTileLayers) (p : element) :
  _parent this = Some p ->
  macro_script this =
  (_ <- py_bool (time_interval this) ;;
   body <- for_in (py_iter (layers this)) (layer_block this) ;;
   Ok (script_text (get_name p) (period this) (time_interval this)
         (auto_play this) (transition_time this) (loop this) body)).
Proof.
  intros Hp. unfold macro_script, parent_get_name. rewrite Hp.
  destruct (py_bool (time_interval this)) as [b | e] eqn:Hb.
  - rewrite (time_interval_block_ok this b Hb).
    unfold text, true_false.
    destruct (for_in (py_iter (layers this)) (layer_block this))
      as [body | e]; cbn; [| reflexivity].
    unfold script_text, time_dimension_object, control_widget, add_control.
    now flatten.
  - rewrite (time_interval_block_raise this e Hb). reflexivity.
Qed.

Lemma macro_script_detached (this : TimestampedWmsTileLayers) :
  _parent this = None -> macro_script this = Raise UndefinedError.
Proof.
  intros Hp. unfold macro_script, parent_get_name. rewrite Hp. reflexivity.
Qed.



(** ** Ordered dictionaries *)

Lemma assoc_od_set (k' k : string) (v : child) (d : odict) :
  assoc k' (od_set k v d) = if String.eqb k' k then Some v else assoc k' d.
Proof.
  induction d as [| [k0 v0] d IH]; simpl.
  - destruct (String.eqb k' k); reflexivity.
  - destruct (String.eqb_spec k k0) as [-> | Hk]; simpl.
    + destruct (String.eqb k' k0); reflexivity.
    + rewrite IH. destruct (String.eqb_spec k' k0) as [-> | Hk'];
        [| reflexivity].
      destruct (String.eqb_spec k0 k) as [-> | _]; [contradiction | reflexivity].
Qed.

Lemma count_key_od_set (k' k : string) (v : child) (d : odict) :
  count_key k' (od_set k v d) =
  if String.eqb k' k then Nat.max 1 (count_key k' d) else count_key k' d.
Proof.
  induction d as [| [k0 v0] d IH]; simpl.
  - destruct (String.eqb k' k); reflexivity.
  - destruct (String.eqb_spec k k0) as [-> | Hk]; simpl.
    + destruct (String.eqb k' k0); simpl; lia.
    + rewrite IH. destruct (String.eqb_spec k' k0) as [-> | Hk'].
      * destruct (String.eqb_spec k0 k) as [-> | _]; [contradiction | reflexivity].
      * destruct (String.eqb k' k); simpl; lia.
Qed.

Lemma od_set_id (k : string) (v : child) (d : odict) :
  assoc k d = Some v -> od_set k v d = d.
Proof.
  induction d as [| [k0 v0] d IH]; simpl; [discriminate |].
  destruct (String.eqb_spec k k0) as [-> | Hk].
  - now intros [= ->].
  - intros H. now rewrite IH.
Qed.

Lemma od_set_fresh (k : string) (v : child) (d : odict) :
  count_key k d = 0 -> od_set k v d = (d ++ [(k, v)])%list.
Proof.
  induction d as [| [k0 v0] d IH]; simpl; [reflexivity |].
  destruct (String.eqb k k0); simpl; [discriminate |].
  intros H. now rewrite IH.
Qed.

Lemma count_key_app (k : string) (d1 d2 : odict) :
  count_key k (d1 ++ d2)%list = count_key k d1 + count_key k d2.
Proof.
  induction d1 as [| [k0 v0] d1 IH]; simpl; [reflexivity |].
  rewrite IH. lia.
Qed.

Lemma od_update_links_assoc (d : odict) :
  Forall (fun kv => assoc (fst kv) (od_update d resource_links) = Some (snd kv))
    resource_links.
Proof.
  unfold od_update, resource_links.
  repeat constructor; cbn [fold_left fst snd];
    rewrite !assoc_od_set; reflexivity.
Qed.

Lemma od_update_links_idem (d : odict) :
  od_update (od_update d resource_links) resource_links =
  od_update d resource_links.
Proof.
  pose proof (od_update_links_assoc d) as H.
  set (d' := od_update d resource_links) in *.
  unfold od_update at 1. unfold resource_links in *. cbn [fold_left fst snd] in *.
  repeat match goal with
         | H : Forall _ (_ :: _) |- _ => inversion_clear H
         end.
  cbn [fst snd] in *.
  repeat (rewrite (od_set_id _ _ d') by assumption). reflexivity.
Qed.

(** ** Rendering *)

Lemma figure_state_insert_eq (w : gmap nat Figure) (fid : nat) (f : Figure) :
  figure_state (<[fid := f]> w) fid = f.
Proof.
  unfold figure_state. now rewrite lookup_insert_eq.
Qed.

Lemma figure_state_insert_ne (w : gmap nat Figure) (fid fid' : nat)
  (f : Figure) :
  fid <> fid' -> figure_state (<[fid := f]> w) fid' = figure_state w fid'.
Proof.
  intros H. unfold figure_state. now rewrite lookup_insert_ne.
Qed.

Lemma render_detached (this : TimestampedWmsTileLayers) (w : gmap nat Figure) :
  is_Figure (get_root (as_element this)) = false ->
  render this w = (Raise (AssertionError detached_message), w).
Proof.
  intros H. unfold render, MacroElement_render, py_assert. rewrite H.
  reflexivity.
Qed.

Lemma render_raise (this : TimestampedWmsTileLayers) (w : gmap nat Figure)
  (e : exn) :
  is_Figure (get_root (as_element this)) = true ->
  macro_script this = Raise e ->
  render this w = (Raise e, w).
Proof.
  intros H Hs. unfold render, MacroElement_render, py_assert. rewrite H, Hs.
  reflexivity.
Qed.

Lemma render_attached (this : TimestampedWmsTileLayers) (w : gmap nat Figure)
  (fid : nat) (s : string) :
  figure_id (get_root (as_element this)) = Some fid ->
  macro_script this = Ok s ->
  render this w =
  (Ok tt,
   <[fid := {| header := od_update (header (figure_state w fid)) resource_links;
               html := html (figure_state w fid);
               script := od_set (this_get_name this) (Element s)
                           (script (figure_state w fid)) |}]> w).
Proof.
  intros Hf Hs.
  unfold render, MacroElement_render, py_assert, is_Figure,
    header_add_child, script_add_child, lift.
  rewrite Hf, Hs. cbn [bind ret M_monad].
  repeat (rewrite figure_state_insert_eq; cbn [header html script]).
  rewrite !insert_insert_eq. reflexivity.
Qed.

Lemma init_inv (uid : string) (data tt lp ap per ti : pyval)
  (this : TimestampedWmsTileLayers) :
  __init__ uid data tt lp ap per ti = Ok this ->
  exists z l a,
    py_int tt = Ok z /\ py_bool lp = Ok l /\ py_bool ap = Ok a /\
    this = {| _id := uid;
              _name := "TimestampedWmsTileLayers";
              _parent := None;
              layer_name := "timestampedwms";
              overlay := true;
              control := false;
              transition_time := z;
              loop := l;
              auto_play := a;
              period := per;
              time_interval := ti;
              layers := if isinstance data "WmsTileLayer"
                        then PyList [data]
                        else data |}.
Proof.
  unfold __init__.
  destruct (py_int tt) as [z | e]; cbn [bind result_monad]; [| discriminate].
  destruct (py_bool lp) as [l | e]; cbn [bind result_monad]; [| discriminate].
  destruct (py_bool ap) as [a | e]; cbn [bind result_monad]; [| discriminate].
  intros [= <-]. now exists z, l, a.
Qed.



Lemma layer_block_ext (t1 t2 : TimestampedWmsTileLayers) (a b : pyval) :
  parent_get_name t1 = parent_get_name t2 ->
  jinja_getattr a "get_name" = jinja_getattr b "get_name" ->
  jinja_getattr a "version" = jinja_getattr b "version" ->
  layer_block t1 a = layer_block t2 b.
Proof.
  intros Hp Hn Hv. unfold layer_block, layer_get_name, layer_version.
  now rewrite Hp, Hn, Hv.
Qed.

Lemma script_of_constructed (uid : string) (data tt lp ap per ti : pyval)
  (this : TimestampedWmsTileLayers) (p : element) (s : string) :
  __init__ uid data tt lp ap per ti = Ok this ->
  macro_script (add_to this p) = Ok s ->
  exists z l a b body,
    py_int tt = Ok z /\ py_bool lp = Ok l /\ py_bool ap = Ok a /\
    py_bool ti = Ok b /\
    transition_time this = z /\ loop this = l /\ auto_play this = a /\
    s = script_text (get_name p) per ti a z l body.
Proof.
  intros Hi Hs. apply init_inv in Hi as (z & l & a & Hz & Hl & Ha & ->).
  rewrite (macro_script_attached (add_to _ p) p eq_refl) in Hs.
  cbn [add_to layers period time_interval auto_play transition_time loop] in Hs.
  destruct (py_bool ti) as [b | e]; cbn [bind result_monad] in Hs;
    [| discriminate].
  match type of Hs with
  | context [for_in ?it ?f] => destruct (for_in it f) as [body | e]
  end; cbn [bind result_monad] in Hs; [| discriminate].
  injection Hs as <-. exists z, l, a, b, body. repeat split; assumption.
Qed.

Lemma occurs_mid (x a s b : string) : occurs x s -> occurs x (a ++ s ++ b).
Proof.
  intros (a' & b' & ->). exists (a ++ a'), (b' ++ b). now flatten.
Qed.

Lemma script_text_control (pn : string) (per ti : pyval) (ap : bool) (t : Z)
  (lp : bool) (body : string) :
  exists pre post,
    script_text pn per ti ap t lp body =
    pre ++ control_widget pn ap t lp ++ post.
Proof.
  exists ("
            " ++ time_dimension_object pn (py_str per) (time_interval_text ti)
          ++ "
            "), ("
            " ++ add_control pn ++ "

            " ++ body ++ "
        ").
  unfold script_text. flatten. reflexivity.
Qed.

Lemma control_widget_occurs (pn : string) (ap : bool) (t : Z) (lp : bool) :
  occurs ("autoPlay: " ++ (if ap then "true" else "false"))
    (control_widget pn ap t lp) /\
  occurs ("transitionTime: " ++ string_of_Z t) (control_widget pn ap t lp) /\
  occurs ("loop: " ++ (if lp then "true" else "false"))
    (control_widget pn ap t lp).
Proof.
  unfold control_widget. repeat split.
  - exists (pn ++ ".timeDimensionControl = L.control.timeDimension({
                position: 'bottomleft',
                "), (",
                playerOptions: {
                    transitionTime: " ++ string_of_Z t ++ ",
                    loop: " ++ (if lp then "true" else "false") ++ "}
                    });").
    flatten. reflexivity.
  - exists (pn ++ ".timeDimensionControl = L.control.timeDimension({
                position: 'bottomleft',
                autoPlay: " ++ (if ap then "true" else "false") ++ ",
                playerOptions: {
                    "), (",
                    loop: " ++ (if lp then "true" else "false") ++ "}
                    });").
    flatten. reflexivity.
  - exists (pn ++ ".timeDimensionControl = L.control.timeDimension({
                position: 'bottomleft',
                autoPlay: " ++ (if ap then "true" else "false") ++ ",
                playerOptions: {
                    transitionTime: " ++ string_of_Z t ++ ",
                    "), "}
                    });".
    flatten. reflexivity.
Qed.

Lemma script_text_occurs (pn : string) (per ti : pyval) (ap : bool) (t : Z)
  (lp : bool) (body : string) :
  occurs ("autoPlay: " ++ (if ap then "true" else "false"))
    (script_text pn per ti ap t lp body) /\
  occurs ("transitionTime: " ++ string_of_Z t)
    (script_text pn per ti ap t lp body) /\
  occurs ("loop: " ++ (if lp then "true" else "false"))
    (script_text pn per ti ap t lp body).
Proof.
  destruct (script_text_control pn per ti ap t lp body) as (pre & post & ->).
  destruct (control_widget_occurs pn ap t lp) as (H1 & H2 & H3).
  repeat split; now apply occurs_mid.
Qed.

Lemma render_all_cons (n : TimestampedWmsTileLayers)
  (r : list TimestampedWmsTileLayers) (w : gmap nat Figure) :
  render_all (n :: r) w =
  match render n w with
  | (Ok _, w1) => render_all r w1
  | (Raise e, w1) => (Raise e, w1)
  end.
Proof. reflexivity. Qed.

Lemma render_ok_header (n : TimestampedWmsTileLayers) (fid : nat)
  (w w1 : gmap nat Figure) (u : unit) :
  figure_id (get_root (as_element n)) = Some fid ->
  render n w = (Ok u, w1) ->
  header (figure_state w1 fid) =
  od_update (header (figure_state w fid)) resource_links.
Proof.
  intros Hf Hr. destruct (macro_script n) as [s | e] eqn:Hs.
  - rewrite (render_attached n w fid s Hf Hs) in Hr. injection Hr as _ <-.
    now rewrite figure_state_insert_eq.
  - rewrite (render_raise n w e) in Hr; [discriminate | | exact Hs].
    unfold is_Figure. now rewrite Hf.
Qed.

Lemma render_all_header (fid : nat) (nodes : list TimestampedWmsTileLayers) :
  Forall (fun n => figure_id (get_root (as_element n)) = Some fid) nodes ->
  forall (w w' : gmap nat Figure) (d : odict),
    render_all nodes w = (Ok tt, w') ->
    header (figure_state w fid) = od_update d resource_links ->
    header (figure_state w' fid) = od_update d resource_links.
Proof.
  induction 1 as [| n nodes Hn _ IH]; intros w w' d Hr Hh.
  - cbn in Hr. injection Hr as <-. exact Hh.
  - rewrite render_all_cons in Hr.
    destruct (render n w) as [[u | e] w1] eqn:Hn1; [| discriminate].
    apply (IH w1 w' d Hr).
    rewrite (render_ok_header n fid w w1 u Hn Hn1), Hh.
    apply od_update_links_idem.
Qed.

Lemma od_update_links_count (d : odict) :
  (forall k, count_key k d <= 1) ->
  Forall (fun kv => count_key (fst kv) (od_update d resource_links) = 1)
    resource_links.
Proof.
  intros Hd. unfold od_update, resource_links.
  repeat constructor; cbn [fold_left fst snd];
    rewrite !count_key_od_set;
    match goal with
    | |- context [count_key ?k d] => specialize (Hd k)
    end; cbn; lia.
Qed.

Lemma od_update_links_other (d : odict) (k : string) :
  ~ In k (map fst resource_links) ->
  count_key k (od_update d resource_links) = count_key k d.
Proof.
  intros Hk. unfold od_update, resource_links in *.
  cbn [fold_left fst snd map In] in *.
  rewrite !count_key_od_set.
  repeat match goal with
         | |- context [String.eqb k ?x] =>
             destruct (String.eqb_spec k x) as [-> | _]; [exfalso; tauto |]
         end.
  reflexivity.
Qed.

Lemma od_update_links_fresh (d : odict) :
  Forall (fun kv => count_key (fst kv) d = 0) resource_links ->
  od_update d resource_links = (d ++ resource_links)%list.
Proof.
  intros H. unfold od_update, resource_links in *.
  repeat match goal with
         | H : Forall _ (_ :: _) |- _ => inversion_clear H
         end.
  cbn [fold_left fst snd] in *.
  rewrite (od_set_fresh _ _ d) by assumption.
  repeat (rewrite (od_set_fresh _ _ (d ++ _)%list)
            by (rewrite count_key_app; cbn; lia);
          rewrite <- List.app_assoc; cbn [app]).
  reflexivity.
Qed.

Lemma init_default_args (uid : string) (data : pyval) :
  init_default uid data =
  __init__ uid data (PyInt 200) (PyBool false) (PyBool false) (PyStr "P1D")
    (PyBool false).
Proof. reflexivity. Qed.

(** A layer without a [version] attribute does not make the template raise:
    the undefined value prints as the empty string. *)
Lemma layer_version_missing (l : pyval) :
  jinja_getattr l "version" = Undefined -> layer_version l = Ok "".
Proof.
  intros H. unfold layer_version. now rewrite H.
Qed.

(** Rendering touches the registries of the node's own figure only. *)
Lemma render_other_figures (this : TimestampedWmsTileLayers)
  (w w' : gmap nat Figure) (fid fid' : nat) (r : result unit) :
  figure_id (get_root (as_element this)) = Some fid ->
  fid <> fid' ->
  render this w = (r, w') ->
  figure_state w' fid' = figure_state w fid'.
Proof.
  intros Hf Hne Hr. destruct (macro_script this) as [s | e] eqn:Hs.
  - rewrite (render_attached this w fid s Hf Hs) in Hr. injection Hr as _ <-.
    now apply figure_state_insert_ne.
  - rewrite (render_raise this w e) in Hr; [now injection Hr as _ <- | | exact Hs].
    unfold is_Figure. now rewrite Hf.
Qed.

(** ** The claims *)

(** C1: rendering a node whose root element is not a Figure raises the
    assertion error whose message says the element cannot be rendered when
    it is not in a Figure; nothing is output, and the page store (the
    header, html and script registries of every figure) is left as it
    was. *)
Theorem C1_render_outside_figure (this : TimestampedWmsTileLayers)
  (w : gmap nat Figure) :
  is_Figure (get_root (as_element this)) = false ->
  render this w =
  (Raise (AssertionError
            "You cannot render this Element if it's not in a Figure."), w).
Proof.
  intros H. now rewrite render_detached.
Qed.




(** C8: two nodes with the same transition time, loop, auto-play, period
    and time interval, under parents of the same name, and holding lists of
    layers that agree pairwise on [get_name] and [version], render the same
    script (or raise the same error). *)
Theorem C8_script_deterministic (t1 t2 : TimestampedWmsTileLayers)
  (p1 p2 : element) (l1 l2 : list pyval) :
  transition_time t1 = transition_time t2 ->
  loop t1 = loop t2 ->
  auto_play t1 = auto_play t2 ->
  period t1 = period t2 ->
  time_interval t1 = time_interval t2 ->
  _parent t1 = Some p1 ->
  _parent t2 = Some p2 ->
  get_name p1 = get_name p2 ->
  layers t1 = PyList l1 ->
  layers t2 = PyList l2 ->
  Forall2 (fun a b =>
             jinja_getattr a "get_name" = jinja_getattr b "get_name" /\
             jinja_getattr a "version" = jinja_getattr b "version") l1 l2 ->
  macro_script t1 = macro_script t2.
Proof.
  intros Ht Hl Ha Hp Hi Hp1 Hp2 Hn Hl1 Hl2 HF.
  rewrite (macro_script_attached t1 p1 Hp1), (macro_script_attached t2 p2 Hp2).
  rewrite Ht, Hl, Ha, Hp, Hi, Hn, Hl1, Hl2.
  destruct (py_bool (time_interval t2)) as [truth | err];
    cbn [bind result_monad]; [| reflexivity].
  assert (Hpar : parent_get_name t1 = parent_get_name t2).
  { unfold parent_get_name. now rewrite Hp1, Hp2, Hn. }
  assert (Hbody : join (map (layer_block t1) l1) =
                  join (map (layer_block t2) l2)).
  { clear Hl1 Hl2.
    induction HF as [| a b l1' l2' [Hab Hv] _ IH]; [reflexivity |].
    cbn [map join]. rewrite (layer_block_ext t1 t2 a b Hpar Hab Hv).
    now rewrite IH. }
  unfold for_in, py_iter. cbn [bind result_monad]. now rewrite Hbody.
Qed.


(** C4: the control widget of the script of a constructed node prints
    [autoPlay] and [loop] as [true] or [false] after the truth values the
    constructor stored, and [transitionTime] as the stored integer; built
    with [loop=True, auto_play=True, transition_time=500] the script has
    [autoPlay: true], [transitionTime: 500] and [loop: true], and built
    with the defaults it has [autoPlay: false], [loop: false] and
    [transitionTime: 200]. *)
Theorem C4_control_options (uid : string) (data tt lp ap per ti : pyval)
  (this : TimestampedWmsTileLayers) (p : element) (s : string) :
  __init__ uid data tt lp ap per ti = Ok this ->
  macro_script (add_to this p) = Ok s ->
  py_bool ap = Ok (auto_play this) /\ py_bool lp = Ok (loop this)
  /\ py_int tt = Ok (transition_time this)
  /\ (exists pre post,
        s = pre ++ control_widget (get_name p) (auto_play this)
                     (transition_time this) (loop this) ++ post)
  /\ (tt = PyInt 500 -> lp = PyBool true -> ap = PyBool true ->
      occurs "autoPlay: true" s /\
      occurs "transitionTime: 500" s /\
      occurs "loop: true" s)
  /\ (tt = PyInt 200 -> lp = PyBool false -> ap = PyBool false ->
      occurs "autoPlay: false" s /\
      occurs "loop: false" s /\
      occurs "transitionTime: 200" s).
Proof.
  intros Hi Hs.
  destruct (script_of_constructed _ _ _ _ _ _ _ _ _ _ Hi Hs)
    as (z & l & a & b & body & Hz & Hl & Ha & _ & <- & <- & <- & ->).
  split; [exact Ha |]. split; [exact Hl |]. split; [exact Hz |].
  split; [apply script_text_control |].
  pose proof (script_text_occurs (get_name p) per ti (auto_play this)
                (transition_time this) (loop this) body) as (H1 & H2 & H3).
  split; intros -> -> ->; cbn in Hz, Hl, Ha;
    injection Hz as Hz; injection Hl as Hl; injection Ha as Ha;
    revert H1 H2 H3; rewrite <- Hz, <- Hl, <- Ha; intros H1 H2 H3;
    repeat split; assumption.
Qed.

(** C5: when one or more nodes under the same figure are rendered, each
    call succeeding, the header of that figure is the former header updated
    with the six links under their fixed keys: every one of the six keys
    is there exactly once with its link, however many nodes were rendered;
    the other keys are untouched; and on a header that had none of them
    the six come last in the order jQuery, jQuery-UI, ISO-8601, Leaflet
    time dimension, then the two stylesheets. *)
Theorem C5_six_links_once (n : TimestampedWmsTileLayers)
  (nodes : list TimestampedWmsTileLayers) (fid : nat)
  (w w' : gmap nat Figure) :
  Forall (fun x => figure_id (get_root (as_element x)) = Some fid)
    (n :: nodes) ->
  (forall k, count_key k (header (figure_state w fid)) <= 1) ->
  render_all (n :: nodes) w = (Ok tt, w') ->
  header (figure_state w' fid) =
    od_update (header (figure_state w fid)) resource_links
  /\ Forall (fun kv =>
               count_key (fst kv) (header (figure_state w' fid)) = 1 /\
               assoc (fst kv) (header (figure_state w' fid)) = Some (snd kv))
       resource_links
  /\ (forall k, ~ In k (map fst resource_links) ->
        count_key k (header (figure_state w' fid)) =
        count_key k (header (figure_state w fid)))
  /\ (Forall (fun kv => count_key (fst kv) (header (figure_state w fid)) = 0)
        resource_links ->
      header (figure_state w' fid) =
      (header (figure_state w fid) ++ resource_links)%list)
  /\ map fst resource_links =
     ["jquery2.0.0"; "jqueryui1.10.2"; "iso8601"; "leaflet.timedimension";
      "highlight.js_css"; "leaflet.timedimension_css"].
Proof.
  intros HF Hwf Hr.
  assert (Hh : header (figure_state w' fid) =
               od_update (header (figure_state w fid)) resource_links).
  { inversion HF as [| x l Hn Hnodes]; subst.
    rewrite render_all_cons in Hr.
    destruct (render n w) as [[u | e] w1] eqn:Hn1; [| discriminate].
    apply (render_all_header fid nodes Hnodes w1 w' _ Hr).
    apply (render_ok_header n fid w w1 u Hn Hn1). }
  split; [exact Hh |]. rewrite Hh. split; [| split; [| split]].
  - apply Forall_and. split.
    + now apply od_update_links_count.
    + apply od_update_links_assoc.
  - intros k Hk. now apply od_update_links_other.
  - apply od_update_links_fresh.
  - reflexivity.
Qed.

(** C9 (amended): a float that denotes a number is accepted as
    [transition_time]: construction succeeds (the truth tests of [loop] and
    [auto_play] not raising) and stores the float rounded toward zero, and
    the script of the node prints that integer as [transitionTime]; an
    infinite float makes construction raise an overflow error and a NaN a
    value error, whatever the other arguments are. *)
Theorem C9_finite_float_truncated (f : spec_float) (uid : string)
  (data lp ap per ti : pyval) :
  (float_finite f = true ->
   forall l a, py_bool lp = Ok l -> py_bool ap = Ok a ->
   exists this,
     __init__ uid data (PyFloat f) lp ap per ti = Ok this /\
     truncation_of f (transition_time this) /\
     (forall p s,
        macro_script (add_to this p) = Ok s ->
        occurs ("transitionTime: " ++ string_of_Z (transition_time this)) s))
  /\ (forall sg, f = S754_infinity sg ->
      __init__ uid data (PyFloat f) lp ap per ti = Raise OverflowError)
  /\ (f = S754_nan ->
      __init__ uid data (PyFloat f) lp ap per ti = Raise ValueError)
  /\ (float_finite f = false ->
      exists e, __init__ uid data (PyFloat f) lp ap per ti = Raise e).
Proof.
  split; [| split; [| split]].
  - intros Hf l a Hl Ha.
    destruct (float_to_int_truncates f Hf) as (t & Ht & Htr).
    pose proof (init_ok uid data (PyFloat f) lp ap per ti t l a Ht Hl Ha)
      as Hi.
    eexists. split; [exact Hi |]. split; [exact Htr |].
    intros p s Hs.
    destruct (script_of_constructed _ _ _ _ _ _ _ _ _ _ Hi Hs)
      as (z & l' & a' & b & body & _ & _ & _ & _ & <- & _ & _ & ->).
    apply script_text_occurs.
  - intros sg ->. reflexivity.
  - intros ->. reflexivity.
  - destruct f; cbn; try discriminate; intros _; now eexists.
Qed.


(** ** Further properties of the constructor, the macro and [render] *)



Lemma is_Figure_id (e : element) :
  is_Figure e = true -> exists fid, figure_id e = Some fid.
Proof.
  unfold is_Figure. destruct (figure_id e); [now eexists | discriminate].
Qed.

Lemma render_raise_inv (this : TimestampedWmsTileLayers)
  (w w' : gmap nat Figure) (e : exn) :
  render this w = (Raise e, w') ->
  w' = w /\
  ((is_Figure (get_root (as_element this)) = false /\
    e = AssertionError detached_message) \/
   (is_Figure (get_root (as_element this)) = true /\
    macro_script this = Raise e)).
Proof.
  intros Hr. destruct (is_Figure (get_root (as_element this))) eqn:Hf.
  - destruct (macro_script this) as [s | e0] eqn:Hs.
    + destruct (is_Figure_id _ Hf) as [fid Hfid].
      rewrite (render_attached this w fid s Hfid Hs) in Hr. discriminate.
    + rewrite (render_raise this w e0 Hf Hs) in Hr. injection Hr as <- <-.
      auto.
  - rewrite (render_detached this w Hf) in Hr. injection Hr as <- <-. auto.
Qed.

Lemma render_ok_inv (this : TimestampedWmsTileLayers)
  (w w' : gmap nat Figure) (u : unit) :
  render this w = (Ok u, w') ->
  exists fid s,
    figure_id (get_root (as_element this)) = Some fid /\
    macro_script this = Ok s /\
    w' = <[fid := {| header := od_update (header (figure_state w fid))
                                 resource_links;
                     html := html (figure_state w fid);
                     script := od_set (this_get_name this) (Element s)
                                 (script (figure_state w fid)) |}]> w.
Proof.
  intros Hr. destruct (is_Figure (get_root (as_element this))) eqn:Hf.
  - destruct (is_Figure_id _ Hf) as [fid Hfid].
    destruct (macro_script this) as [s | e0] eqn:Hs.
    + rewrite (render_attached this w fid s Hfid Hs) in Hr.
      injection Hr as _ <-. now exists fid, s.
    + rewrite (render_raise this w e0 Hf Hs) in Hr. discriminate.
  - rewrite (render_detached this w Hf) in Hr. discriminate.
Qed.

Lemma od_set_same (k : string) (v : child) (d : odict) :
  od_set k v (od_set k v d) = od_set k v d.
Proof.
  apply od_set_id. rewrite assoc_od_set. now rewrite String.eqb_refl.
Qed.

Lemma od_set_keys (k : string) (v : child) (d : odict) :
  exists extra,
    map fst (od_set k v d) = (map fst d ++ extra)%list /\
    (extra = [] \/ extra = [k]).
Proof.
  induction d as [| [k0 v0] d (extra & IH & Hx)]; cbn [od_set].
  - exists [k]. auto.
  - destruct (String.eqb_spec k k0) as [-> | Hk]; cbn [map fst].
    + exists []. rewrite List.app_nil_r. auto.
    + exists extra. rewrite IH. auto.
Qed.

Lemma od_update_keys (new d : odict) :
  exists extra,
    map fst (od_update d new) = (map fst d ++ extra)%list /\
    length extra <= length new /\
    (forall k, In k extra -> In k (map fst new)).
Proof using Type.
  revert d. induction new as [| [k v] new IH]; intros d.
  - exists []. cbn. rewrite List.app_nil_r.
    split; [reflexivity |]. split; [apply le_n | intros k []].
  - unfold od_update. cbn [fold_left fst snd].
    destruct (IH (od_set k v d)) as (x2 & H2 & Hl2 & Hin2).
    destruct (od_set_keys k v d) as (x1 & H1 & Hx1).
    exists (x1 ++ x2)%list. unfold od_update in H2.
    rewrite H2, H1, <- List.app_assoc. split; [reflexivity |]. split.
    + rewrite List.length_app. cbn [length].
      destruct Hx1 as [-> | ->]; cbn [length]; lia.
    + intros k' Hk'. apply in_app_or in Hk' as [Hk' | Hk'].
      * destruct Hx1 as [-> | ->]; [destruct Hk' |].
        destruct Hk' as [<- | []]. now left.
      * right. now apply Hin2.
Qed.

Lemma assoc_od_update_other (new d : odict) (k : string) :
  ~ In k (map fst new) -> assoc k (od_update d new) = assoc k d.
Proof.
  revert d. induction new as [| [k0 v0] new IH]; intros d Hk; [reflexivity |].
  unfold od_update. cbn [fold_left fst snd].
  change (assoc k (od_update (od_set k0 v0 d) new) = assoc k d).
  rewrite IH by (intros H; apply Hk; now right).
  rewrite assoc_od_set.
  destruct (String.eqb_spec k k0) as [-> | _]; [| reflexivity].
  exfalso. apply Hk. now left.
Qed.

(** X1: a node that was just constructed has no parent, so rendering it
    before adding it to a map under a figure raises the assertion error and
    registers nothing, whatever the arguments were. *)
Theorem X1_fresh_node_cannot_render (uid : string)
  (data tt lp ap per ti : pyval) (this : TimestampedWmsTileLayers)
  (w : gmap nat Figure) :
  __init__ uid data tt lp ap per ti = Ok this ->
  render this w = (Raise (AssertionError detached_message), w).
Proof.
  intros Hi. apply init_inv in Hi as (z & l & a & _ & _ & _ & ->).
  now apply render_detached.
Qed.

(** X2: a call of [render] that raises leaves the page store exactly as it
    found it: no link and no script is registered by a failed call. *)
Theorem X2_failed_render_changes_nothing (this : TimestampedWmsTileLayers)
  (w w' : gmap nat Figure) (e : exn) :
  render this w = (Raise e, w') -> w' = w.
Proof.
  intros Hr. now apply render_raise_inv in Hr as [-> _].
Qed.

(** X5: rendering a node again on the store its first rendering produced
    changes nothing: the links and the script are registered under the same
    keys with the same values. *)
Theorem X5_render_twice (this : TimestampedWmsTileLayers)
  (w w1 : gmap nat Figure) :
  render this w = (Ok tt, w1) ->
  render this w1 = (Ok tt, w1).
Proof.
  intros Hr. apply render_ok_inv in Hr as (fid & s & Hf & Hs & ->).
  rewrite (render_attached this _ fid s Hf Hs).
  rewrite figure_state_insert_eq. cbn [header html script].
  rewrite od_update_links_idem, od_set_same, insert_insert_eq. reflexivity.
Qed.

(** X6: a successful [render] never removes or reorders what the header
    already held: the former keys stay in place, at most six keys, all
    among the six of this plugin, are added after them, and the entries
    under other keys keep their values. *)
Theorem X6_header_entries_preserved (this : TimestampedWmsTileLayers)
  (w w' : gmap nat Figure) (fid : nat) :
  figure_id (get_root (as_element this)) = Some fid ->
  render this w = (Ok tt, w') ->
  (exists extra,
     map fst (header (figure_state w' fid)) =
     (map fst (header (figure_state w fid)) ++ extra)%list /\
     length extra <= 6 /\
     (forall k, In k extra -> In k (map fst resource_links)))
  /\ (forall k, ~ In k (map fst resource_links) ->
        assoc k (header (figure_state w' fid)) =
        assoc k (header (figure_state w fid))).
Proof.
  intros Hf Hr. rewrite (render_ok_header this fid w w' tt Hf Hr). split.
  - apply (od_update_keys resource_links).
  - intros k Hk. now apply assoc_od_update_other.
Qed.

(** X7: [render] only writes to the header and script registries of the
    figure the node is under: the registries of every other figure, and
    the html registry of its own, are as before, whether the call
    succeeds or raises. *)
Theorem X7_render_is_local (this : TimestampedWmsTileLayers)
  (w w' : gmap nat Figure) (fid : nat) (r : result unit) :
  figure_id (get_root (as_element this)) = Some fid ->
  render this w = (r, w') ->
  (forall fid', fid <> fid' -> figure_state w' fid' = figure_state w fid')
  /\ html (figure_state w' fid) = html (figure_state w fid).
Proof.
  intros Hf Hr. split.
  - intros fid' Hne. now apply (render_other_figures this w w' fid fid' r).
  - destruct r as [u | e].
    + apply render_ok_inv in Hr as (fid0 & s & Hf0 & _ & ->).
      rewrite Hf in Hf0. injection Hf0 as <-.
      now rewrite figure_state_insert_eq.
    + now apply render_raise_inv in Hr as [-> _].
Qed.

(** X8: handing the constructor one [WmsTileLayer] or the list holding just
    that layer builds the same node. *)
Theorem X8_single_layer_is_singleton_list (uid : string)
  (layer tt lp ap per ti : pyval) :
  isinstance layer "WmsTileLayer" = true ->
  __init__ uid layer tt lp ap per ti =
  __init__ uid (PyList [layer]) tt lp ap per ti.
Proof.
  intros H. unfold __init__. rewrite H. reflexivity.
Qed.

(** X9: the constructor normalises once: building a node again from the
    fields of a constructed node gives that node back. *)
Theorem X9_reconstruct_from_fields (uid : string)
  (data tt lp ap per ti : pyval) (this : TimestampedWmsTileLayers) :
  __init__ uid data tt lp ap per ti = Ok this ->
  __init__ uid (layers this) (PyInt (transition_time this))
    (PyBool (loop this)) (PyBool (auto_play this)) (period this)
    (time_interval this) = Ok this.
Proof.
  intros Hi. apply init_inv in Hi as (z & l & a & _ & _ & _ & ->).
  cbn [layers transition_time loop auto_play period time_interval].
  unfold __init__. cbn [py_int bind result_monad py_bool].
  destruct (isinstance data "WmsTileLayer") eqn:Hd; [reflexivity |].
  now rewrite Hd.
Qed.

(** X10: [loop] and [auto_play] are taken by truth value, so a string that
    is not empty, the word false included, switches them on: the node
    stores true and the script prints [loop: true] and [autoPlay: true]. *)
Theorem X10_nonempty_string_is_true (uid : string) (data tt per ti : pyval)
  (l a : string) (this : TimestampedWmsTileLayers) :
  l <> "" -> a <> "" ->
  __init__ uid data tt (PyStr l) (PyStr a) per ti = Ok this ->
  loop this = true /\ auto_play this = true /\
  (forall p s,
     macro_script (add_to this p) = Ok s ->
     occurs "loop: true" s /\ occurs "autoPlay: true" s).
Proof.
  intros Hl Ha Hi.
  assert (Hpl : py_bool (PyStr l) = Ok true)
    by (cbn; apply String.eqb_neq in Hl; now rewrite Hl).
  assert (Hpa : py_bool (PyStr a) = Ok true)
    by (cbn; apply String.eqb_neq in Ha; now rewrite Ha).
  assert (Hf : loop this = true /\ auto_play this = true).
  { apply init_inv in Hi as (z & l' & a' & _ & Hl' & Ha' & ->).
    rewrite Hpl in Hl'. rewrite Hpa in Ha'.
    injection Hl' as <-. injection Ha' as <-. now split. }
  destruct Hf as [Hfl Hfa]. split; [exact Hfl |]. split; [exact Hfa |].
  intros p s Hs.
  destruct (script_of_constructed _ _ _ _ _ _ _ _ _ _ Hi Hs)
    as (z & l' & a' & b & body & _ & _ & _ & _ & _ & <- & <- & ->).
  rewrite Hfl, Hfa.
  destruct (script_text_occurs (get_name p) per ti true z true body)
    as (H1 & _ & H3).
  split; assumption.
Qed.




End Interpreter.

(** ** The claims at concrete inputs *)

Lemma C1_witness :
  is_Figure (get_root (as_element (sample_node "7" (Some sample_div)
                                     (PyList [WmsTileLayer "a" "1.1.1"])))) =
  false /\
  render sample_str_opaque
    (sample_node "7" (Some sample_div) (PyList [WmsTileLayer "a" "1.1.1"])) ∅ =
  (Raise (AssertionError
            "You cannot render this Element if it's not in a Figure."), ∅).
Proof.
  split; [reflexivity |].
  apply (C1_render_outside_figure sample_str_opaque). reflexivity.
Defined.



Lemma C4_witness :
  exists this s,
    __init__ sample_int_of_str "7" (WmsTileLayer "a" "1.1.1") (PyInt 500)
      (PyBool true) (PyBool true) (PyStr "P1D") (PyBool false) = Ok this /\
    macro_script sample_str_opaque (add_to this sample_map) = Ok s /\
    occurs "autoPlay: true" s /\
    occurs "transitionTime: 500" s /\
    occurs "loop: true" s.
Proof.
  eexists. eexists. split; [reflexivity |]. split; [reflexivity |].
  eapply (C4_control_options sample_int_of_str sample_str_opaque "7"
            (WmsTileLayer "a" "1.1.1") (PyInt 500) (PyBool true)
            (PyBool true) (PyStr "P1D") (PyBool false)
            _ sample_map _); reflexivity.
Defined.

Lemma C5_witness :
  exists w',
    render_all sample_str_opaque
      [sample_node "7" (Some sample_map) (PyList [WmsTileLayer "a" "1.1.1"]);
       sample_node "8" (Some sample_map) (PyList [])] ∅ = (Ok tt, w') /\
    header (figure_state w' 0) = resource_links.
Proof.
  eexists. split; [vm_compute; reflexivity |].
  refine (proj1 (proj2 (proj2 (proj2
            (C5_six_links_once sample_str_opaque
               (sample_node "7" (Some sample_map)
                  (PyList [WmsTileLayer "a" "1.1.1"]))
               [sample_node "8" (Some sample_map) (PyList [])] 0 ∅
               _ _ _ _))))
            _).
  - repeat constructor.
  - intros k. unfold figure_state. rewrite lookup_empty. cbn. lia.
  - vm_compute; reflexivity.
  - repeat constructor.
Defined.

Lemma C8_witness :
  macro_script sample_str_opaque
    (sample_node "7" (Some sample_map) (PyList [WmsTileLayer "a" "1.1.1"])) =
  macro_script sample_str_opaque
    (sample_node "8" (Some (MkElement "map_1" None None))
       (PyList [PyObj ["WmsTileLayer"]
                  [("get_name", PyMethod (PyStr "wms_tile_layer_a"));
                   ("version", PyStr "1.1.1");
                   ("url", PyStr "http://this.wms.server/ncWMS/wms")]])).
Proof.
  eapply (C8_script_deterministic sample_str_opaque); try reflexivity.
  repeat constructor.
Defined.

Lemma C9_witness :
  float_finite float_200_9 = true /\
  exists this,
    __init__ sample_int_of_str "7" (PyList []) (PyFloat float_200_9)
      (PyBool false) (PyBool false) (PyStr "P1D") (PyBool false) = Ok this /\
    truncation_of float_200_9 (transition_time this) /\
    (forall p s,
       macro_script sample_str_opaque (add_to this p) = Ok s ->
       occurs ("transitionTime: " ++ string_of_Z (transition_time this)) s).
Proof.
  split; [reflexivity |].
  apply (proj1 (C9_finite_float_truncated sample_int_of_str
                  sample_str_opaque float_200_9 "7" (PyList [])
                  (PyBool false) (PyBool false) (PyStr "P1D")
                  (PyBool false)) eq_refl false false eq_refl eq_refl).
Defined.

(** [int(200.9)] is 200. *)
Example float_200_9_to_int : float_to_int float_200_9 = Ok 200%Z.
Proof. reflexivity. Qed.

(** C9 as stated fails: the infinite float is a float, and constructing
    with it raises. *)
Lemma C9_counterexample_infinity :
  __init__ sample_int_of_str "7" (PyList []) (PyFloat (S754_infinity false))
    (PyBool false) (PyBool false) (PyStr "P1D") (PyBool false) =
  Raise OverflowError.
Proof. reflexivity. Qed.



(** ** The further properties at concrete inputs *)

Lemma X1_witness :
  exists this,
    __init__ sample_int_of_str "7" (WmsTileLayer "a" "1.1.1") (PyInt 200)
      (PyBool false) (PyBool false) (PyStr "P1D") (PyBool false) = Ok this /\
    render sample_str_opaque this ∅ =
    (Raise (AssertionError detached_message), ∅).
Proof.
  eexists. split; [reflexivity |].
  apply (X1_fresh_node_cannot_render sample_int_of_str sample_str_opaque "7"
           (WmsTileLayer "a" "1.1.1") (PyInt 200) (PyBool false)
           (PyBool false) (PyStr "P1D") (PyBool false)).
  reflexivity.
Defined.

Lemma X2_witness :
  render sample_str_opaque
    (sample_node "7" (Some sample_map) (PyList [PyInt 3])) ∅ =
  (Raise UndefinedError, ∅) /\
  (∅ : gmap nat Figure) = ∅.
Proof.
  assert (H : render sample_str_opaque
                (sample_node "7" (Some sample_map) (PyList [PyInt 3])) ∅ =
              (Raise UndefinedError, ∅)) by (vm_compute; reflexivity).
  split; [exact H |].
  exact (X2_failed_render_changes_nothing sample_str_opaque _ _ _ _ H).
Defined.

Lemma X5_witness :
  exists w1,
    render sample_str_opaque
      (sample_node "7" (Some sample_map) (PyList [WmsTileLayer "a" "1.1.1"]))
      ∅ = (Ok tt, w1) /\
    render sample_str_opaque
      (sample_node "7" (Some sample_map) (PyList [WmsTileLayer "a" "1.1.1"]))
      w1 = (Ok tt, w1).
Proof.
  eexists. split; [vm_compute; reflexivity |].
  apply (X5_render_twice sample_str_opaque _ ∅). vm_compute; reflexivity.
Defined.

Lemma X6_witness :
  exists w',
    render sample_str_opaque
      (sample_node "7" (Some sample_map) (PyList [])) sample_store =
    (Ok tt, w') /\
    forall k, ~ In k (map fst resource_links) ->
      assoc k (header (figure_state w' 0)) =
      assoc k (header (figure_state sample_store 0)).
Proof.
  eexists. split; [vm_compute; reflexivity |].
  refine (proj2 (X6_header_entries_preserved sample_str_opaque
                   (sample_node "7" (Some sample_map) (PyList []))
                   sample_store _ 0 _ _)).
  - reflexivity.
  - vm_compute; reflexivity.
Defined.

(** On that store the six links end up after the link that was there, the
    older link under [iso8601] being replaced where it stood. *)
Example render_on_sample_store :
  exists w',
    render sample_str_opaque
      (sample_node "7" (Some sample_map) (PyList [])) sample_store =
    (Ok tt, w') /\
    map fst (header (figure_state w' 0)) =
    ["leaflet"; "iso8601"; "jquery2.0.0"; "jqueryui1.10.2";
     "leaflet.timedimension"; "highlight.js_css";
     "leaflet.timedimension_css"] /\
    assoc "iso8601" (header (figure_state w' 0)) =
    Some (JavascriptLink
            "https://rawgit.com/nezasa/iso8601-js-period/master/iso8601.min.js").
Proof.
  eexists. split; [vm_compute; reflexivity |]. split; vm_compute; reflexivity.
Qed.

Lemma X7_witness :
  exists r w',
    render sample_str_opaque
      (sample_node "7" (Some sample_map) (PyList [])) sample_store =
    (r, w') /\
    figure_state w' 1 = figure_state sample_store 1 /\
    html (figure_state w' 0) = html (figure_state sample_store 0).
Proof.
  eexists. eexists. split; [vm_compute; reflexivity |].
  destruct (X7_render_is_local sample_str_opaque
              (sample_node "7" (Some sample_map) (PyList [])) sample_store
              _ 0 _ eq_refl ltac:(vm_compute; reflexivity)) as [H1 H2].
  split; [apply H1; discriminate | exact H2].
Defined.

Lemma X8_witness :
  isinstance (WmsTileLayer "a" "1.1.1") "WmsTileLayer" = true /\
  __init__ sample_int_of_str "7" (WmsTileLayer "a" "1.1.1") (PyInt 200)
    (PyBool false) (PyBool false) (PyStr "P1D") (PyBool false) =
  __init__ sample_int_of_str "7" (PyList [WmsTileLayer "a" "1.1.1"])
    (PyInt 200) (PyBool false) (PyBool false) (PyStr "P1D") (PyBool false).
Proof.
  split; [reflexivity |].
  apply (X8_single_layer_is_singleton_list sample_int_of_str). reflexivity.
Defined.

Lemma X9_witness :
  exists this,
    __init__ sample_int_of_str "7" (WmsTileLayer "a" "1.1.1")
      (PyFloat float_200_9) (PyStr "yes") PyNone (PyStr "P1D")
      (PyBool false) = Ok this /\
    __init__ sample_int_of_str "7" (layers this)
      (PyInt (transition_time this)) (PyBool (loop this))
      (PyBool (auto_play this)) (period this) (time_interval this) = Ok this.
Proof.
  eexists. split; [reflexivity |].
  apply (X9_reconstruct_from_fields sample_int_of_str "7"
           (WmsTileLayer "a" "1.1.1") (PyFloat float_200_9) (PyStr "yes")
           PyNone (PyStr "P1D") (PyBool false)).
  reflexivity.
Defined.

Lemma X10_witness :
  exists this,
    __init__ sample_int_of_str "7" (PyList []) (PyInt 200) (PyStr "false")
      (PyStr "no") (PyStr "P1D") (PyBool false) = Ok this /\
    loop this = true /\ auto_play this = true.
Proof.
  eexists. split; [reflexivity |].
  destruct (X10_nonempty_string_is_true sample_int_of_str sample_str_opaque
              "7" (PyList []) (PyInt 200) (PyStr "P1D") (PyBool false)
              "false" "no" _ ltac:(discriminate) ltac:(discriminate) eq_refl)
    as (H1 & H2 & _).
  split; [exact H1 | exact H2].
Defined.



